(** * Shallow embedding of the contract types (shared/types.py) and of the
    domain generation script (scripts/domain_assembler.py). *)

From Stdlib Require Import QArith Qabs Ascii String.
From stdpp Require Import base gmap strings list pretty.

Open Scope string_scope.
Set Warnings "-register-all".

(* ========================================================================= *)
(** ** Python values, exceptions and the state/exception monad               *)
(* ========================================================================= *)

(** The subset of Python values built by [generate_test_domain] and carried
    in the open metadata bags: ints, strings, lists and dicts.  A dict keeps
    its insertion order (it is dumped with [sort_keys=False]), so it is an
    association list. *)
Inductive pyval : Type :=
| VInt (z : Z)
| VStr (s : string)
| VList (l : list pyval)
| VDict (d : list (string * pyval)).

Abbreviation pydict := (list (string * pyval)).

(** Python exceptions that the modelled code can raise. *)
Inductive exn : Type :=
| KeyError (k : string)
| TypeError (msg : string)
| NotImplementedError (msg : string)
| FileExistsError (p : list string)
| IsADirectoryError (p : list string).

Inductive result (A : Type) : Type :=
| Ok (a : A)
| Exc (e : exn).
Arguments Ok {A} a.
Arguments Exc {A} e.

(** A filesystem node: a directory or a regular file with its text. *)
Inductive node : Type :=
| Dir
| File (contents : string).

(** Process state: the filesystem (relative paths as component lists; the
    empty path is the working directory, which always exists) and stdout. *)
Record state : Type := mkState {
  fs : gmap (list string) node;
  stdout : list string
}.

(** A computation threads the state and may raise; state changes made before
    a raise are kept, as in Python. *)
Definition M (A : Type) : Type := state -> result A * state.

Definition ret {A} (a : A) : M A := fun s => (Ok a, s).
Definition raise {A} (e : exn) : M A := fun s => (Exc e, s).
Definition bind {A B} (m : M A) (k : A -> M B) : M B :=
  fun s => match m s with
           | (Ok a, s') => k a s'
           | (Exc e, s') => (Exc e, s')
           end.

Notation "'let*' x := m 'in' k" := (bind m (fun x => k))
  (at level 200, x name, m at level 100, k at level 200).

Definition lift_result {A} (r : result A) : M A :=
  match r with Ok a => ret a | Exc e => raise e end.

Definition print (line : string) : M unit :=
  fun s => (Ok tt, mkState (fs s) (stdout s ++ [line])).

(* ========================================================================= *)
(** ** Python built-ins used by the script                                    *)
(* ========================================================================= *)

Fixpoint dict_get (d : pydict) (k : string) : option pyval :=
  match d with
  | [] => None
  | (k', v) :: d' => if String.eqb k k' then Some v else dict_get d' k
  end.

(** [v[k]] on a dict. *)
Definition py_getitem (v : pyval) (k : string) : result pyval :=
  match v with
  | VDict d => match dict_get d k with
               | Some x => Ok x
               | None => Exc (KeyError k)
               end
  | _ => Exc (TypeError "object is not subscriptable")
  end.

(** [len(v)]. *)
Definition py_len (v : pyval) : result Z :=
  match v with
  | VList l => Ok (Z.of_nat (length l))
  | VDict d => Ok (Z.of_nat (length d))
  | VStr s => Ok (Z.of_nat (String.length s))
  | VInt _ => Exc (TypeError "object of type 'int' has no len()")
  end.

(** [str(v)] for the scalar values formatted in f-strings. *)
Definition py_str (v : pyval) : string :=
  match v with
  | VInt z => pretty z
  | VStr s => s
  | VList _ => "[...]"
  | VDict _ => "{...}"
  end.

(** [pathlib.Path(s)]: split on '/', dropping empty and '.' components. *)
Fixpoint split_path_aux (s : string) (cur : string) : list string :=
  match s with
  | EmptyString => [cur]
  | String c s' =>
      if Ascii.eqb c "/"%char then cur :: split_path_aux s' ""
      else split_path_aux s' (cur +:+ String c EmptyString)
  end.

Definition Path (s : string) : list string :=
  filter (fun c => c <> "" /\ c <> ".") (split_path_aux s "").

(** [Path.parent]; the parent of '.' is '.'. *)
Definition parent (p : list string) : list string := removelast p.

Definition fs_lookup (m : gmap (list string) node) (p : list string) : option node :=
  match p with
  | [] => Some Dir
  | _ => m !! p
  end.

(** The non-empty prefixes of a path, shortest first. *)
Definition prefixes (p : list string) : list (list string) :=
  map (fun n => take n p) (seq 1 (length p)).

(** [p.mkdir(parents=True, exist_ok=True)]: every missing ancestor is created,
    an existing directory is accepted, an existing regular file raises. *)
Fixpoint mkdir_all (ps : list (list string)) : M unit :=
  match ps with
  | [] => ret tt
  | q :: ps' =>
      fun s =>
        match fs_lookup (fs s) q with
        | Some Dir => mkdir_all ps' s
        | Some (File _) => (Exc (FileExistsError q), s)
        | None => mkdir_all ps' (mkState (<[q := Dir]> (fs s)) (stdout s))
        end
  end.

Definition mkdir_parents (p : list string) : M unit := mkdir_all (prefixes p).

(** [with open(p, 'w') as f: f.write(text)]: the parent exists (it was just
    created); a directory at [p] raises. *)
Definition write_file (p : list string) (text : string) : M unit :=
  fun s =>
    match fs_lookup (fs s) p with
    | Some Dir => (Exc (IsADirectoryError p), s)
    | _ => (Ok tt, mkState (<[p := File text]> (fs s)) (stdout s))
    end.

(** [str(Path)]: components joined with '/', or '.' for the empty path. *)
Definition path_str (p : list string) : string :=
  match p with
  | [] => "."
  | _ => String.concat "/" p
  end.

Definition nl : string := String (Ascii.ascii_of_nat 10) EmptyString.

(* ========================================================================= *)
(** ** scripts/domain_assembler.py                                            *)
(* ========================================================================= *)

(** The literal returned by [generate_test_domain]. *)
Definition test_domain : pyval :=
  VDict [
    ("metadata", VDict [
        ("name", VStr "test_kitting_cell");
        ("description", VStr "Test environment for intention recognition");
        ("version", VStr "1.0");
        ("source", VStr "hardcoded_test_data")]);
    ("environment", VDict [
        ("width", VInt 1600);
        ("height", VInt 800);
        ("units", VStr "pixels")]);
    ("zones", VList [
        VDict [("id", VStr "zone_SE");
               ("bounds", VDict [("x_min", VInt 800); ("x_max", VInt 1600);
                                 ("y_min", VInt 0); ("y_max", VInt 400)]);
               ("label", VStr "southeast_storage")];
        VDict [("id", VStr "zone_SW");
               ("bounds", VDict [("x_min", VInt 0); ("x_max", VInt 800);
                                 ("y_min", VInt 0); ("y_max", VInt 400)]);
               ("label", VStr "southwest_storage")];
        VDict [("id", VStr "zone_NW");
               ("bounds", VDict [("x_min", VInt 0); ("x_max", VInt 800);
                                 ("y_min", VInt 400); ("y_max", VInt 800)]);
               ("label", VStr "northwest_work")];
        VDict [("id", VStr "zone_NE");
               ("bounds", VDict [("x_min", VInt 800); ("x_max", VInt 1600);
                                 ("y_min", VInt 400); ("y_max", VInt 800)]);
               ("label", VStr "northeast_work")]]);
    ("shelves", VList [
        VDict [("id", VStr "shelf_1"); ("position", VList [VInt 100; VInt 100]);
               ("size", VList [VInt 100; VInt 100]); ("slots", VInt 4);
               ("zone", VStr "zone_SW")];
        VDict [("id", VStr "shelf_2"); ("position", VList [VInt 300; VInt 100]);
               ("size", VList [VInt 100; VInt 100]); ("slots", VInt 4);
               ("zone", VStr "zone_SW")];
        VDict [("id", VStr "shelf_3"); ("position", VList [VInt 1400; VInt 100]);
               ("size", VList [VInt 100; VInt 100]); ("slots", VInt 4);
               ("zone", VStr "zone_SE")]]);
    ("tables", VList [
        VDict [("id", VStr "kitting_table"); ("position", VList [VInt 650; VInt 710]);
               ("size", VList [VInt 300; VInt 90]); ("zone", VStr "zone_NW")]]);
    ("doors", VList [
        VDict [("id", VStr "south_exit"); ("position", VList [VInt 725; VInt 0]);
               ("size", VList [VInt 150; VInt 30]); ("function", VStr "exit")];
        VDict [("id", VStr "north_entry_A"); ("position", VList [VInt 1450; VInt 770]);
               ("size", VList [VInt 150; VInt 30]); ("function", VStr "enter")]]);
    ("items", VList [
        VDict [("id", VStr "item_1"); ("type", VStr "part_A");
               ("initial_location", VStr "shelf_1"); ("size", VList [VInt 25; VInt 25])];
        VDict [("id", VStr "item_2"); ("type", VStr "part_A");
               ("initial_location", VStr "shelf_2"); ("size", VList [VInt 25; VInt 25])];
        VDict [("id", VStr "item_3"); ("type", VStr "part_B");
               ("initial_location", VStr "shelf_3"); ("size", VList [VInt 25; VInt 25])]])
  ].

(** [generate_test_domain()]: builds and returns the literal; it takes no
    argument and touches no state. *)
Definition generate_test_domain : M pyval := ret test_domain.

(** Parsed command line ([argparse] namespace). *)
Record Args : Type := mkArgs {
  input : option string;
  output : string
}.

Definition default_output : string := "configs/domain.yaml".

Section DomainAssembler.

(** [yaml.dump(domain, f, default_flow_style=False, sort_keys=False)] is
    PyYAML's serializer, outside this repository: it is taken as an arbitrary
    function of the dumped value. *)
Variable yaml_dump : pyval -> string.

Definition print_summary (domain : pyval) : M unit :=
  let* shelves := lift_result (py_getitem domain "shelves") in
  let* n_shelves := lift_result (py_len shelves) in
  let* items := lift_result (py_getitem domain "items") in
  let* n_items := lift_result (py_len items) in
  let* zones := lift_result (py_getitem domain "zones") in
  let* n_zones := lift_result (py_len zones) in
  let* env := lift_result (py_getitem domain "environment") in
  let* w := lift_result (py_getitem env "width") in
  let* h := lift_result (py_getitem env "height") in
  let* _ := print (nl ++ "Domain Summary:") in
  let* _ := print ("  - Shelves: " ++ pretty n_shelves) in
  let* _ := print ("  - Items: " ++ pretty n_items) in
  let* _ := print ("  - Zones: " ++ pretty n_zones) in
  print ("  - Grid: " ++ py_str w ++ "x" ++ py_str h).

Definition convert_gazebo_to_domain (gazebo_json_path : option string)
    (output_path : string) : M unit :=
  let p := Path output_path in
  let* _ := mkdir_parents (parent p) in
  let* domain :=
    match gazebo_json_path with
    | None =>
        let* _ := print "No Gazebo JSON provided - generating test data" in
        generate_test_domain
    | Some g =>
        let* _ := print ("Parsing Gazebo JSON from " ++ g) in
        raise (NotImplementedError "Gazebo JSON parsing not yet implemented")
    end in
  let* _ := write_file p (yaml_dump domain) in
  let* _ := print ("Generated domain config at " ++ path_str p) in
  print_summary domain.

(** The [__main__] block. *)
Definition main (args : Args) : M unit :=
  let* _ := convert_gazebo_to_domain (input args) (output args) in
  print ("Domain assembly complete. file " ++ output args ++ " generated.").

(** Process exit: 0 on normal completion, 1 on an uncaught exception. *)
Definition run_main (args : Args) (s : state) : Z * state :=
  match main args s with
  | (Ok _, s') => (0%Z, s')
  | (Exc _, s') => (1%Z, s')
  end.

End DomainAssembler.

(* ========================================================================= *)
(** ** shared/types.py                                                        *)
(* ========================================================================= *)

(** A keyword argument of a dataclass constructor: omitted (the field's
    default is used) or given explicitly. *)
Inductive arg (A : Type) : Type :=
| Omitted
| Given (a : A).
Arguments Omitted {A}.
Arguments Given {A} a.

Definition default_or {A} (d : A) (x : arg A) : A :=
  match x with Omitted => d | Given a => a end.

(** Python [float] fields are modelled as rationals: the code only stores
    them, it does no arithmetic on them. *)

Module ObservationTypes.

Record SpatialContext : Type := mkSpatialContext {
  position : Q * Q;
  orientation : Q;
  zone : option string
}.

Record ActionContext : Type := mkActionContext {
  target_object : option string;
  progress : Q;
  metadata : pydict
}.

Record Observation : Type := mkObservation {
  timestamp : Q;
  agent_id : string;
  detected_microaction : string;
  spatial_context : SpatialContext;
  action_context : ActionContext;
  confidence : Q
}.

(** The generated [__init__] of the [@dataclass]es: it assigns the fields,
    filling omitted ones from their defaults, and has no [__post_init__]. *)
Definition SpatialContext_init (position : Q * Q) (orientation : Q)
    (zone : arg (option string)) : result SpatialContext :=
  Ok (mkSpatialContext position orientation (default_or None zone)).

Definition ActionContext_init (target_object : arg (option string))
    (progress : arg Q) (metadata : arg pydict) : result ActionContext :=
  Ok (mkActionContext (default_or None target_object) (default_or 0%Q progress)
        (default_or [] metadata)).

Definition Observation_init (timestamp : Q) (agent_id detected_microaction : string)
    (spatial_context : SpatialContext) (action_context : ActionContext)
    (confidence : arg Q) : result Observation :=
  Ok (mkObservation timestamp agent_id detected_microaction spatial_context
        action_context (default_or 1%Q confidence)).

End ObservationTypes.

Module BeliefTypes.

Record BeliefState : Type := mkBeliefState {
  timestamp : Q;
  agent_id : string;
  distribution : list (string * Q);
  most_likely : string;
  confidence : Q;
  predicted_next_actions : list (string * list string)
}.

Definition BeliefState_init (timestamp : Q) (agent_id : string)
    (distribution : list (string * Q)) (most_likely : string) (confidence : Q)
    (predicted_next_actions : arg (list (string * list string))) : result BeliefState :=
  Ok (mkBeliefState timestamp agent_id distribution most_likely confidence
        (default_or [] predicted_next_actions)).

End BeliefTypes.

Module PlanningTypes.

Inductive ActionType : Type :=
| NAVIGATE
| PICK
| PLACE
| WAIT
| HANDOVER.

Record AbstractAction : Type := mkAbstractAction {
  action_type : ActionType;
  parameters : pydict;
  estimated_path : option (list (Q * Q));
  estimated_duration : Q;
  spatial_constraints : pydict;
  temporal_constraints : pydict
}.

Definition AbstractAction_init (action_type : ActionType) (parameters : pydict)
    (estimated_path : arg (option (list (Q * Q)))) (estimated_duration : arg Q)
    (spatial_constraints temporal_constraints : arg pydict) : result AbstractAction :=
  Ok (mkAbstractAction action_type parameters (default_or None estimated_path)
        (default_or 0%Q estimated_duration) (default_or [] spatial_constraints)
        (default_or [] temporal_constraints)).

End PlanningTypes.

(* ========================================================================= *)
(** ** Readers for the emitted domain and the spec's side of the claims       *)
(* ========================================================================= *)

(** [domain[key]] as a list (empty when absent or not a list). *)
Definition section (domain : pyval) (key : string) : list pyval :=
  match py_getitem domain key with
  | Ok (VList l) => l
  | _ => []
  end.

(** [entry[key]] as a string. *)
Definition str_field (entry : pyval) (key : string) : option string :=
  match py_getitem entry key with
  | Ok (VStr s) => Some s
  | _ => None
  end.

Definition int_field (entry : pyval) (key : string) : option Z :=
  match py_getitem entry key with
  | Ok (VInt z) => Some z
  | _ => None
  end.

Definition env_int (domain : pyval) (key : string) : option Z :=
  match py_getitem domain "environment" with
  | Ok env => int_field env key
  | Exc _ => None
  end.

Definition ids (entries : list pyval) : list string :=
  omap (fun e => str_field e "id") entries.

(** The spec's referential-integrity invariant of a Domain Environment: every
    shelf/table [zone] is a zone id, every item [initial_location] is a shelf
    or table id. *)
Definition spec_domain_refs_ok (domain : pyval) : bool :=
  let zone_ids := ids (section domain "zones") in
  let loc_ids := app (ids (section domain "shelves")) (ids (section domain "tables")) in
  forallb (fun e => match str_field e "zone" with
                    | Some z => bool_decide (z ∈ zone_ids)
                    | None => false
                    end) (app (section domain "shelves") (section domain "tables"))
  && forallb (fun e => match str_field e "initial_location" with
                       | Some l => bool_decide (l ∈ loc_ids)
                       | None => false
                       end) (section domain "items").

(** The spec's [most_likely]: the key of maximum probability, ties broken by
    the lexicographically smallest key. *)
Definition spec_most_likely (d : list (string * Q)) : option string :=
  match d with
  | [] => None
  | (k0, p0) :: rest =>
      Some (fst (fold_left
        (fun (best : string * Q) (kp : string * Q) =>
           let '(bk, bp) := best in
           let '(k, p) := kp in
           if Qlt_le_dec bp p then (k, p)
           else if Qeq_bool p bp && String.ltb k bk then (k, p)
           else best) rest (k0, p0)))
  end.

(** The spec's probability-distribution invariant: every value in [0,1] and
    the sum within 1e-6 of 1. *)
Definition spec_distribution_valid (d : list (string * Q)) : bool :=
  forallb (fun kp => Qle_bool 0%Q (snd kp) && Qle_bool (snd kp) 1%Q) d
  && Qle_bool (Qabs (fold_right Qplus 0%Q (map snd d) - 1)%Q) (1 # 1000000).

(** The spec's table of required parameter keys per action type. *)
Definition spec_required_keys (t : PlanningTypes.ActionType) : list string :=
  match t with
  | PlanningTypes.NAVIGATE => ["target"]
  | PlanningTypes.PICK => ["target"; "item"]
  | PlanningTypes.PLACE => ["target"; "item"]
  | PlanningTypes.WAIT => []
  | PlanningTypes.HANDOVER => ["target"; "item"]
  end.

Definition has_key (d : pydict) (k : string) : bool :=
  match dict_get d k with Some _ => true | None => false end.

Definition empty_state : state := mkState ∅ [].


(** A concrete serializer used to instantiate the witnesses. *)
Definition dump_stub (v : pyval) : string := py_str v.

(* ========================================================================= *)
(** ** Theorems: the dataclass constructors                                   *)
(* ========================================================================= *)

Module Import O := ObservationTypes.
Module B := BeliefTypes.
Module P := PlanningTypes.

(** C1 (amended): the [Observation], [ActionContext] and [SpatialContext]
    constructors perform no validation: for any confidence, progress and zone
    they succeed and store the given values unchanged. *)
Theorem observation_init_never_validates :
  forall (t : Q) (a m : string) (sc : SpatialContext) (ac : ActionContext)
         (c : arg Q) (pos : Q * Q) (ori : Q) (z : arg (option string))
         (tgt : arg (option string)) (pr : arg Q) (md : arg pydict),
    Observation_init t a m sc ac c = Ok (mkObservation t a m sc ac (default_or 1%Q c))
    /\ ActionContext_init tgt pr md
       = Ok (mkActionContext (default_or None tgt) (default_or 0%Q pr) (default_or [] md))
    /\ SpatialContext_init pos ori z = Ok (mkSpatialContext pos ori (default_or None z)).
Proof. intros. repeat split. Qed.

(** C1 (counterexample): an Observation with confidence 2, progress 3/2 and
    a zone outside the loaded zone ids is constructed without error. *)
Lemma observation_out_of_range_accepted :
  ~ (forall (zone_ids : list string) (t : Q) (a m : string)
            (sc : SpatialContext) (ac : ActionContext) (c : Q),
       (~ (0 <= c <= 1)%Q \/ ~ (0 <= progress ac <= 1)%Q
        \/ (exists z, zone sc = Some z /\ z ∉ zone_ids)) ->
       forall o, Observation_init t a m sc ac (Given c) <> Ok o).
Proof.
  intros H.
  set (sc := mkSpatialContext (0%Q, 0%Q) 0%Q (Some "zone_X")).
  set (ac := mkActionContext None (3 # 2) []).
  apply (H ["zone_SE"] 0%Q "human_1" "pick_item_7" sc ac 2%Q
           (or_introl (fun h => match Qle_not_lt _ _ (proj2 h) (eq_refl : (1 < 2)%Q) with end))
           (mkObservation 0%Q "human_1" "pick_item_7" sc ac 2%Q)).
  reflexivity.
Qed.

(** C8: an omitted [confidence] is 1.0 and an omitted [progress] is 0.0;
    an explicit value is stored as given, whatever it is. *)
Theorem dataclass_defaults :
  forall (t : Q) (a m : string) (sc : SpatialContext) (ac : ActionContext)
         (tgt : arg (option string)) (md : arg pydict) (c p : Q),
    (exists o, Observation_init t a m sc ac Omitted = Ok o /\ confidence o = 1%Q)
    /\ (exists o, Observation_init t a m sc ac (Given c) = Ok o /\ confidence o = c)
    /\ (exists x, ActionContext_init tgt Omitted md = Ok x /\ progress x = 0%Q)
    /\ (exists x, ActionContext_init tgt (Given p) md = Ok x /\ progress x = p).
Proof. intros. repeat split; eexists; split; reflexivity. Qed.

(** C2 (amended): [most_likely] is a caller-supplied field: [BeliefState]
    construction stores it unchanged for every distribution, neither
    computing nor checking it against [distribution]. *)
Theorem belief_state_most_likely_as_given :
  forall (t : Q) (a : string) (d : list (string * Q)) (ml : string) (c : Q)
         (pna : arg (list (string * list string))),
    exists bs, B.BeliefState_init t a d ml c pna = Ok bs
               /\ B.most_likely bs = ml /\ B.distribution bs = d.
Proof. intros. eexists. repeat split. Qed.

(** C2 (counterexample): the valid distribution {A: 0.7, B: 0.3} with
    [most_likely = "B"] is constructed, although the spec's argmax is A. *)
Lemma belief_state_wrong_argmax_accepted :
  ~ (forall (t : Q) (a : string) (d : list (string * Q)) (ml : string) (c : Q)
            (pna : arg (list (string * list string))) (bs : B.BeliefState),
       B.BeliefState_init t a d ml c pna = Ok bs ->
       spec_distribution_valid d = true -> d <> [] ->
       spec_most_likely (B.distribution bs) = Some (B.most_likely bs)).
Proof.
  intros H.
  set (d := [("A", 7 # 10); ("B", 3 # 10)]).
  assert (Hv : spec_distribution_valid d = true) by reflexivity.
  specialize (H 0%Q "human_1" d "B" 1%Q Omitted
                (B.mkBeliefState 0%Q "human_1" d "B" 1%Q []) eq_refl Hv
                ltac:(discriminate)).
  vm_compute in H. discriminate H.
Qed.

(** C3 (amended): [AbstractAction] construction succeeds for every action
    type and every [parameters] mapping, storing it as given; no required
    key is checked. *)
Theorem abstract_action_parameters_unchecked :
  forall (t : P.ActionType) (params : pydict)
         (path : arg (option (list (Q * Q)))) (dur : arg Q) (sc tc : arg pydict),
    exists act, P.AbstractAction_init t params path dur sc tc = Ok act
                /\ P.action_type act = t /\ P.parameters act = params.
Proof. intros. eexists. repeat split. Qed.

(** C3 (counterexample): a NAVIGATE action with empty [parameters] (no
    [target]) is constructed. *)
Lemma navigate_without_target_accepted :
  ~ (forall (t : P.ActionType) (params : pydict)
            (path : arg (option (list (Q * Q)))) (dur : arg Q) (sc tc : arg pydict)
            (act : P.AbstractAction),
       P.AbstractAction_init t params path dur sc tc = Ok act ->
       forallb (has_key (P.parameters act)) (spec_required_keys (P.action_type act)) = true).
Proof.
  intros H.
  specialize (H P.NAVIGATE [] Omitted Omitted Omitted Omitted
                (P.mkAbstractAction P.NAVIGATE [] None 0%Q [] []) eq_refl).
  discriminate H.
Qed.

(** C10: [generate_test_domain] reads no state: run from any two states it
    returns the same value, and it leaves the state unchanged. *)
Theorem generate_test_domain_pure :
  forall s1 s2 : state,
    fst (generate_test_domain s1) = fst (generate_test_domain s2)
    /\ snd (generate_test_domain s1) = s1
    /\ fst (generate_test_domain s1) = Ok test_domain.
Proof. intros. repeat split. Qed.

(* ========================================================================= *)
(** ** Filesystem lemmas                                                      *)
(* ========================================================================= *)

Lemma fs_lookup_insert_ne (m : gmap (list string) node) (q k : list string) (v : node) :
  q <> k -> fs_lookup (<[q := v]> m) k = fs_lookup m k.
Proof. intros Hne. destruct k as [|x k]; [reflexivity|]. apply lookup_insert_ne, Hne. Qed.

Lemma fs_lookup_insert_eq (m : gmap (list string) node) (q : list string) (v : node) :
  q <> [] -> fs_lookup (<[q := v]> m) q = Some v.
Proof. intros Hq. destruct q as [|x q]; [congruence|]. apply lookup_insert_eq. Qed.

Lemma fs_lookup_nil (m : gmap (list string) node) : fs_lookup m [] = Some Dir.
Proof. reflexivity. Qed.

(** [mkdir(parents=True, exist_ok=True)] succeeds when no prefix is a regular
    file: afterwards every prefix is a directory and nothing else changed. *)
Lemma mkdir_all_ok (ps : list (list string)) (s : state) :
  (forall q c, q ∈ ps -> fs_lookup (fs s) q <> Some (File c)) ->
  exists m', mkdir_all ps s = (Ok tt, mkState m' (stdout s))
    /\ (forall k, k ∉ ps -> fs_lookup m' k = fs_lookup (fs s) k)
    /\ (forall q, q ∈ ps -> fs_lookup m' q = Some Dir).
Proof.
  revert s. induction ps as [|q ps IH]; intros s Hnf.
  - exists (fs s). split; [destruct s; reflexivity|]. split; [reflexivity|].
    intros q Hq. apply elem_of_nil in Hq. contradiction.
  - destruct (fs_lookup (fs s) q) as [[|c]|] eqn:E.
    + destruct (IH s) as (m' & Hrun & Hsame & Hdir).
      { intros q' c Hq'. apply Hnf. set_solver. }
      exists m'. split; [simpl; rewrite E; exact Hrun|]. split.
      * intros k Hk. apply Hsame. set_solver.
      * intros q' Hq'. apply elem_of_cons in Hq' as [->|Hq'].
        -- destruct (decide (q ∈ ps)); [auto|]. rewrite Hsame by assumption. exact E.
        -- auto.
    + exfalso. apply (Hnf q c); [set_solver | exact E].
    + assert (Hq : q <> []) by (intros ->; discriminate E).
      set (s' := mkState (<[q := Dir]> (fs s)) (stdout s)).
      destruct (IH s') as (m' & Hrun & Hsame & Hdir).
      { intros q' c Hq'. subst s'; simpl.
        destruct (decide (q = q')) as [<-|Hne].
        - rewrite fs_lookup_insert_eq by exact Hq. discriminate.
        - rewrite fs_lookup_insert_ne by exact Hne. apply Hnf. set_solver. }
      exists m'. split; [simpl; rewrite E; exact Hrun|]. split.
      * intros k Hk. rewrite Hsame by set_solver. subst s'; simpl.
        apply fs_lookup_insert_ne. set_solver.
      * intros q' Hq'. apply elem_of_cons in Hq' as [->|Hq'].
        -- destruct (decide (q ∈ ps)); [auto|]. rewrite Hsame by assumption.
           subst s'; simpl. apply fs_lookup_insert_eq, Hq.
        -- auto.
Qed.

(** When every prefix already is a directory, [mkdir] changes nothing. *)
Lemma mkdir_all_dirs (ps : list (list string)) (s : state) :
  (forall q, q ∈ ps -> fs_lookup (fs s) q = Some Dir) ->
  mkdir_all ps s = (Ok tt, s).
Proof.
  revert s. induction ps as [|q ps IH]; intros s Hd; [reflexivity|].
  simpl. rewrite Hd by set_solver. apply IH. intros q' Hq'. apply Hd. set_solver.
Qed.

Lemma prefixes_length (r q : list string) : q ∈ prefixes r -> length q <= length r.
Proof.
  unfold prefixes. intros Hq. apply list_elem_of_In, in_map_iff in Hq.
  destruct Hq as (n & <- & _). rewrite length_take. lia.
Qed.

(** The output path is never one of its parent's prefixes. *)
Lemma path_not_in_parent_prefixes (p : list string) : p ∉ prefixes (parent p).
Proof.
  intros Hp. destruct p as [|x p].
  - unfold prefixes in Hp. simpl in Hp. apply elem_of_nil in Hp. exact Hp.
  - apply prefixes_length in Hp. unfold parent in Hp.
    assert (length (removelast (x :: p)) = length p).
    { clear Hp. revert x. induction p as [|y p IHp]; intros x; [reflexivity|].
      change (removelast (x :: y :: p)) with (x :: removelast (y :: p)).
      cbn [length]. rewrite IHp. reflexivity. }
    simpl in *. lia.
Qed.

(* ========================================================================= *)
(** ** Runs of the script                                                     *)
(* ========================================================================= *)

Definition not_implemented_msg : string := "Gazebo JSON parsing not yet implemented".

(** With an input path: the parent directories are created, then
    [NotImplementedError] is raised before anything is written. *)
Lemma main_some_run (dump : pyval -> string) (g out : string) (s : state) :
  (forall q c, q ∈ prefixes (parent (Path out)) -> fs_lookup (fs s) q <> Some (File c)) ->
  exists m', main dump (mkArgs (Some g) out) s
             = (Exc (NotImplementedError not_implemented_msg),
                mkState m' (stdout s ++ ["Parsing Gazebo JSON from " ++ g]))
    /\ (forall k, k ∉ prefixes (parent (Path out)) -> fs_lookup m' k = fs_lookup (fs s) k)
    /\ (forall q, q ∈ prefixes (parent (Path out)) -> fs_lookup m' q = Some Dir).
Proof.
  intros Hnf.
  destruct (mkdir_all_ok _ s Hnf) as (m' & Hrun & Hsame & Hdir).
  exists m'. split; [|split; assumption].
  unfold main, convert_gazebo_to_domain, mkdir_parents. cbv [bind input output].
  rewrite Hrun. reflexivity.
Qed.

(** Without an input path: once [mkdir] succeeded and the output path is not
    a directory, the dump of [test_domain] is written there and the process
    exits 0. *)
Lemma main_none_run (dump : pyval -> string) (out : string) (s : state)
    (m' : gmap (list string) node) :
  mkdir_parents (parent (Path out)) s = (Ok tt, mkState m' (stdout s)) ->
  fs_lookup m' (Path out) <> Some Dir ->
  exists lines, run_main dump (mkArgs None out) s
    = (0%Z, mkState (<[Path out := File (dump test_domain)]> m') (stdout s ++ lines)).
Proof.
  intros Hrun Hnd.
  unfold run_main, main, convert_gazebo_to_domain. cbv [bind input output].
  rewrite Hrun.
  destruct (fs_lookup m' (Path out)) as [[|c]|] eqn:E; [congruence| |].
  all: cbv [print generate_test_domain ret write_file fs stdout]; rewrite E; eexists; cbn.
  all: rewrite <- !app_assoc; reflexivity.
  all: rewrite <- !app_assoc; reflexivity.
Qed.

Lemma mkdir_all_ok_inv (ps : list (list string)) (s s1 : state) :
  mkdir_all ps s = (Ok tt, s1) ->
  exists m', s1 = mkState m' (stdout s)
    /\ (forall k, k ∉ ps -> fs_lookup m' k = fs_lookup (fs s) k)
    /\ (forall q, q ∈ ps -> fs_lookup m' q = Some Dir).
Proof.
  intros Hrun. destruct (mkdir_all_ok ps s) as (m' & Hrun' & Hsame & Hdir).
  - revert s Hrun. induction ps as [|q ps IH]; intros s Hrun q' c Hq'.
    + apply elem_of_nil in Hq'. contradiction.
    + simpl in Hrun. destruct (fs_lookup (fs s) q) as [[|c']|] eqn:E;
        [|discriminate Hrun|].
      * apply elem_of_cons in Hq' as [->|Hq']; [rewrite E; discriminate|].
        exact (IH s Hrun q' c Hq').
      * apply elem_of_cons in Hq' as [->|Hq']; [rewrite E; discriminate|].
        specialize (IH _ Hrun q' c Hq'). simpl in IH.
        destruct (decide (q = q')) as [<-|Hne].
        -- rewrite E. discriminate.
        -- rewrite fs_lookup_insert_ne in IH by exact Hne. exact IH.
  - exists m'. rewrite Hrun in Hrun'. injection Hrun' as <-. auto.
Qed.

(** A run with an input path always ends in an exception. *)
Lemma main_some_raises (dump : pyval -> string) (g out : string) (s : state) :
  exists e s', main dump (mkArgs (Some g) out) s = (Exc e, s').
Proof.
  unfold main, convert_gazebo_to_domain. cbv [bind input output]. cbv zeta.
  destruct (mkdir_parents (parent (Path out)) s) as [[[]|e] s1]; eauto.
Qed.

(** Every run that exits 0 took the no-input path: the parent directories
    exist and the dump of [test_domain] is at the output path. *)
Lemma run_main_success_inv (dump : pyval -> string) (args : Args) (s : state) :
  fst (run_main dump args s) = 0%Z ->
  input args = None /\ Path (output args) <> [] /\
  exists m' lines,
    run_main dump args s
      = (0%Z, mkState (<[Path (output args) := File (dump test_domain)]> m') (stdout s ++ lines))
    /\ (forall q, q ∈ prefixes (parent (Path (output args))) -> fs_lookup m' q = Some Dir)
    /\ (forall k, k ∉ prefixes (parent (Path (output args))) ->
                  fs_lookup m' k = fs_lookup (fs s) k).
Proof.
  destruct args as [[g|] out]; cbn [input output]; intros Hcode.
  - destruct (main_some_raises dump g out s) as (e & s' & Hm).
    unfold run_main in Hcode. rewrite Hm in Hcode. discriminate Hcode.
  - destruct (mkdir_parents (parent (Path out)) s) as [[[]|e] s1] eqn:Hmk.
    + destruct (mkdir_all_ok_inv _ _ _ Hmk) as (m' & -> & Hsame & Hdir).
      destruct (fs_lookup m' (Path out)) as [[|c]|] eqn:E.
      * exfalso. revert Hcode. unfold run_main, main, convert_gazebo_to_domain.
        cbv [bind input output]. cbv zeta. rewrite Hmk.
        cbv [print generate_test_domain ret write_file fs stdout]. rewrite E.
        discriminate.
      * destruct (main_none_run dump out s m' Hmk) as (lines & Hr); [congruence|].
        split; [reflexivity|]. split.
        { intros Hnil. rewrite Hnil in E. discriminate E. }
        exists m', lines. auto.
      * destruct (main_none_run dump out s m' Hmk) as (lines & Hr); [congruence|].
        split; [reflexivity|]. split.
        { intros Hnil. rewrite Hnil in E. discriminate E. }
        exists m', lines. auto.
    + exfalso. revert Hcode. unfold run_main, main, convert_gazebo_to_domain.
      cbv [bind input output]. cbv zeta. rewrite Hmk. discriminate.
Qed.

(* ========================================================================= *)
(** ** Theorems: the generation tool                                          *)
(* ========================================================================= *)

(** C4: with no input and output [configs/domain.yaml] (where [configs] is
    not a regular file and the output is not a directory), the tool exits 0
    and writes the dump of a domain with zones zone_SE, zone_SW, zone_NW,
    zone_NE, 3 shelves, 1 table, 2 doors, 3 items and a 1600x800 grid. *)
Theorem default_invocation_scenario (dump : pyval -> string) (s : state)
    (Hcfg : forall c, fs s !! ["configs"] <> Some (File c))
    (Hout : fs s !! ["configs"; "domain.yaml"] <> Some Dir) :
  fst (run_main dump (mkArgs None default_output) s) = 0%Z
  /\ fs (snd (run_main dump (mkArgs None default_output) s)) !! ["configs"; "domain.yaml"]
     = Some (File (dump test_domain))
  /\ length (section test_domain "zones") = 4
  /\ ids (section test_domain "zones") = ["zone_SE"; "zone_SW"; "zone_NW"; "zone_NE"]
  /\ length (section test_domain "shelves") = 3
  /\ length (section test_domain "tables") = 1
  /\ length (section test_domain "doors") = 2
  /\ length (section test_domain "items") = 3
  /\ env_int test_domain "width" = Some 1600%Z
  /\ env_int test_domain "height" = Some 800%Z.
Proof.
  assert (Hp : Path default_output = ["configs"; "domain.yaml"]) by reflexivity.
  assert (Hpre : prefixes (parent (Path default_output)) = [["configs"]])
    by reflexivity.
  destruct (mkdir_all_ok (prefixes (parent (Path default_output))) s)
    as (m' & Hrun & Hsame & _).
  { rewrite Hpre. intros q c Hq. apply elem_of_cons in Hq as [->|Hq]; [|apply elem_of_nil in Hq; contradiction].
    apply Hcfg. }
  destruct (main_none_run dump default_output s m' Hrun) as (lines & Hr).
  { rewrite Hsame by apply path_not_in_parent_prefixes. rewrite Hp. exact Hout. }
  rewrite Hr. cbn [fst snd fs]. rewrite Hp, lookup_insert_eq.
  repeat split; reflexivity.
Qed.

(** C5: with an input path (and parent directories that can be created) the
    run raises [NotImplementedError], exits 1 and leaves the output path as
    it was. *)
Theorem input_path_fails_without_writing (dump : pyval -> string) (g out : string)
    (s : state)
    (Hnf : forall q c, q ∈ prefixes (parent (Path out)) ->
                       fs_lookup (fs s) q <> Some (File c)) :
  fst (main dump (mkArgs (Some g) out) s) = Exc (NotImplementedError not_implemented_msg)
  /\ fst (run_main dump (mkArgs (Some g) out) s) = 1%Z
  /\ fs_lookup (fs (snd (run_main dump (mkArgs (Some g) out) s))) (Path out)
     = fs_lookup (fs s) (Path out).
Proof.
  destruct (main_some_run dump g out s Hnf) as (m' & Hm & Hsame & _).
  unfold run_main. rewrite Hm. cbn [fst snd fs].
  split; [reflexivity|]. split; [reflexivity|].
  apply Hsame, path_not_in_parent_prefixes.
Qed.

(** C9: with an input path, the parent directories of the output path are
    created before [NotImplementedError] is raised; when one was missing,
    the filesystem has changed although the output file was not written. *)
Theorem input_path_creates_parents (dump : pyval -> string) (g out : string)
    (s : state)
    (Hnf : forall q c, q ∈ prefixes (parent (Path out)) ->
                       fs_lookup (fs s) q <> Some (File c)) :
  fst (main dump (mkArgs (Some g) out) s) = Exc (NotImplementedError not_implemented_msg)
  /\ (forall q, q ∈ prefixes (parent (Path out)) ->
        fs_lookup (fs (snd (main dump (mkArgs (Some g) out) s))) q = Some Dir)
  /\ (forall q, q ∈ prefixes (parent (Path out)) -> fs_lookup (fs s) q = None ->
        fs (snd (main dump (mkArgs (Some g) out) s)) <> fs s)
  /\ fs_lookup (fs (snd (main dump (mkArgs (Some g) out) s))) (Path out)
     = fs_lookup (fs s) (Path out).
Proof.
  destruct (main_some_run dump g out s Hnf) as (m' & Hm & Hsame & Hdir).
  rewrite Hm. cbn [fst snd fs].
  split; [reflexivity|]. split; [exact Hdir|]. split.
  - intros q Hq Hnone Heq. rewrite <- Heq, Hdir in Hnone by exact Hq. discriminate.
  - apply Hsame, path_not_in_parent_prefixes.
Qed.

(** C6: every domain the tool writes (any run that exits 0) satisfies the
    referential-integrity invariant of the Domain Environment. *)
Theorem emitted_domain_refs_ok (dump : pyval -> string) (args : Args) (s : state) :
  fst (run_main dump args s) = 0%Z ->
  exists d, fs_lookup (fs (snd (run_main dump args s))) (Path (output args))
            = Some (File (dump d))
         /\ spec_domain_refs_ok d = true.
Proof.
  intros Hcode.
  destruct (run_main_success_inv dump args s Hcode) as (_ & Hne & m' & lines & Hr & _).
  exists test_domain. rewrite Hr. cbn [snd fs]. split.
  - apply fs_lookup_insert_eq, Hne.
  - reflexivity.
Qed.

(** C7: a second run with no input and the same output path exits 0,
    rewrites the identical file and leaves the filesystem as the first run
    left it. *)
Theorem generation_idempotent (dump : pyval -> string) (out : string) (s : state) :
  fst (run_main dump (mkArgs None out) s) = 0%Z ->
  let s1 := snd (run_main dump (mkArgs None out) s) in
  fst (run_main dump (mkArgs None out) s1) = 0%Z
  /\ fs (snd (run_main dump (mkArgs None out) s1)) = fs s1
  /\ fs_lookup (fs (snd (run_main dump (mkArgs None out) s1))) (Path out)
     = Some (File (dump test_domain))
  /\ fs_lookup (fs s1) (Path out) = Some (File (dump test_domain)).
Proof.
  intros Hcode s1.
  destruct (run_main_success_inv dump (mkArgs None out) s Hcode)
    as (_ & Hne & m' & lines & Hr & Hdir & _).
  cbn [output] in *.
  assert (Hs1 : s1 = mkState (<[Path out := File (dump test_domain)]> m') (stdout s ++ lines))
    by (subst s1; rewrite Hr; reflexivity).
  clearbody s1. subst s1.
  assert (Hmk : mkdir_parents (parent (Path out))
                  (mkState (<[Path out := File (dump test_domain)]> m') (stdout s ++ lines))
                = (Ok tt, mkState (<[Path out := File (dump test_domain)]> m') (stdout s ++ lines))).
  { apply mkdir_all_dirs. intros q Hq. cbn [fs].
    rewrite fs_lookup_insert_ne by (intros Heq; subst q; exact (path_not_in_parent_prefixes _ Hq)).
    apply Hdir, Hq. }
  destruct (main_none_run dump out _ _ Hmk) as (lines2 & Hr2).
  { rewrite fs_lookup_insert_eq by exact Hne. discriminate. }
  rewrite Hr2. cbn [fst snd fs]. rewrite insert_insert_eq.
  rewrite fs_lookup_insert_eq by exact Hne. repeat split.
Qed.

(* ========================================================================= *)
(** ** Witnesses: the hypotheses hold on a concrete run                       *)
(* ========================================================================= *)

Lemma empty_no_file_prefix :
  forall q c, q ∈ prefixes (parent (Path default_output)) ->
              fs_lookup (fs empty_state) q <> Some (File c).
Proof.
  intros [|x q] c _; [discriminate|]. cbn [fs_lookup fs empty_state].
  rewrite lookup_empty. discriminate.
Qed.

Lemma default_invocation_scenario_witness :
  (forall c, fs empty_state !! ["configs"] <> Some (File c))
  /\ fs empty_state !! ["configs"; "domain.yaml"] <> Some Dir
  /\ fst (run_main dump_stub (mkArgs None default_output) empty_state) = 0%Z.
Proof.
  assert (H1 : forall c, fs empty_state !! ["configs"] <> Some (File c))
    by (intros c; vm_compute; discriminate).
  assert (H2 : fs empty_state !! ["configs"; "domain.yaml"] <> Some Dir)
    by (vm_compute; discriminate).
  split; [exact H1|]. split; [exact H2|].
  exact (proj1 (default_invocation_scenario dump_stub empty_state H1 H2)).
Defined.

Lemma input_path_fails_without_writing_witness :
  fst (main dump_stub (mkArgs (Some "world.json") default_output) empty_state)
  = Exc (NotImplementedError not_implemented_msg).
Proof.
  exact (proj1 (input_path_fails_without_writing dump_stub "world.json" default_output
                  empty_state empty_no_file_prefix)).
Defined.

Lemma input_path_creates_parents_witness :
  fs (snd (main dump_stub (mkArgs (Some "world.json") default_output) empty_state))
  <> fs empty_state.
Proof.
  exact (proj1 (proj2 (proj2 (input_path_creates_parents dump_stub "world.json"
           default_output empty_state empty_no_file_prefix)))
           ["configs"] ltac:(vm_compute; left) eq_refl).
Defined.

Lemma emitted_domain_refs_ok_witness :
  fst (run_main dump_stub (mkArgs None default_output) empty_state) = 0%Z
  /\ exists d, fs_lookup (fs (snd (run_main dump_stub (mkArgs None default_output) empty_state)))
                 (Path default_output) = Some (File (dump_stub d))
               /\ spec_domain_refs_ok d = true.
Proof.
  assert (H : fst (run_main dump_stub (mkArgs None default_output) empty_state) = 0%Z)
    by reflexivity.
  split; [exact H|].
  exact (emitted_domain_refs_ok dump_stub (mkArgs None default_output) empty_state H).
Defined.

Lemma generation_idempotent_witness :
  fst (run_main dump_stub (mkArgs None default_output) empty_state) = 0%Z
  /\ fst (run_main dump_stub (mkArgs None default_output)
            (snd (run_main dump_stub (mkArgs None default_output) empty_state))) = 0%Z.
Proof.
  assert (H : fst (run_main dump_stub (mkArgs None default_output) empty_state) = 0%Z)
    by reflexivity.
  split; [exact H|].
  exact (proj1 (generation_idempotent dump_stub default_output empty_state H)).
Defined.

(* ========================================================================= *)
(** ** Further properties of the script                                       *)
(* ========================================================================= *)





Lemma run_main_state (dump : pyval -> string) (args : Args) (s : state) :
  snd (run_main dump args s) = snd (main dump args s).
Proof. unfold run_main. destruct (main dump args s) as [[] ?]; reflexivity. Qed.

Lemma run_main_code (dump : pyval -> string) (args : Args) (s : state) (e : exn) (s' : state) :
  main dump args s = (Exc e, s') -> fst (run_main dump args s) = 1%Z.
Proof. unfold run_main. intros ->. reflexivity. Qed.




(** X3: without input, an output path that is an existing directory (in
    particular "" or ".", the working directory) makes the run raise
    [IsADirectoryError] and exit 1. *)
Theorem output_directory_fails (dump : pyval -> string) (out : string) (s : state) :
  (forall q c, q ∈ prefixes (parent (Path out)) -> fs_lookup (fs s) q <> Some (File c)) ->
  fs_lookup (fs s) (Path out) = Some Dir ->
  fst (main dump (mkArgs None out) s) = Exc (IsADirectoryError (Path out))
  /\ fst (run_main dump (mkArgs None out) s) = 1%Z.
Proof.
  intros Hnf Hd.
  destruct (mkdir_all_ok _ s Hnf) as (m' & Hrun & Hsame & _).
  assert (E : fs_lookup m' (Path out) = Some Dir)
    by (rewrite Hsame by apply path_not_in_parent_prefixes; exact Hd).
  assert (Hm : main dump (mkArgs None out) s
               = (Exc (IsADirectoryError (Path out)),
                  mkState m' (stdout s ++ ["No Gazebo JSON provided - generating test data"]))).
  { unfold main, convert_gazebo_to_domain, mkdir_parents. cbv [bind input output]. cbv zeta.
    rewrite Hrun. cbv [print generate_test_domain ret write_file fs stdout].
    rewrite E. destruct s; reflexivity. }
  rewrite Hm. split; [reflexivity|]. exact (run_main_code _ _ _ _ _ Hm).
Qed.


(** X5: with an input path (and creatable ancestors) the run prints only
    the parsing notice; neither the summary nor the completion line is
    printed. *)
Theorem input_path_stdout (dump : pyval -> string) (g out : string) (s : state) :
  (forall q c, q ∈ prefixes (parent (Path out)) -> fs_lookup (fs s) q <> Some (File c)) ->
  stdout (snd (run_main dump (mkArgs (Some g) out) s))
  = app (stdout s) ["Parsing Gazebo JSON from " ++ g].
Proof.
  intros Hnf. destruct (main_some_run dump g out s Hnf) as (m' & Hm & _).
  rewrite run_main_state, Hm. reflexivity.
Qed.


(* ========================================================================= *)
(** ** Witnesses for the further properties                                   *)
(* ========================================================================= *)



Lemma output_directory_fails_witness :
  fst (main dump_stub (mkArgs None ".") empty_state) = Exc (IsADirectoryError []).
Proof.
  exact (proj1 (output_directory_fails dump_stub "." empty_state
           ltac:(intros q c Hq; vm_compute in Hq; apply elem_of_nil in Hq; contradiction)
           eq_refl)).
Defined.


Lemma input_path_stdout_witness :
  stdout (snd (run_main dump_stub (mkArgs (Some "world.json") default_output) empty_state))
  = ["Parsing Gazebo JSON from world.json"].
Proof.
  exact (input_path_stdout dump_stub "world.json" default_output empty_state
           empty_no_file_prefix).
Defined.
